(** * The certificate data gatherer of the trigger policies

    A shallow embedding of [Gatherer.DataForCertificate]
    (pkg/controller/certificates/trigger/policies/gatherer.go) and the
    properties of the resolution of a certificate's secret, "current"
    request and "next" request.

    The Go packages the function draws on appear as modules of the same
    name.  Pointers are values of [Ptr], an address paired with the object
    it points to; a nil pointer is [None].  The calls made on the two
    listers, their outcomes and the debug log lines are recorded in a
    trace, so that "which query was issued" is a statement about the
    function's result. *)

From Stdlib Require Import ZArith List String Ascii Bool Lia.
From Stdlib Require Import DecimalString DecimalZ.
From Stdlib Require Import Permutation.
Import ListNotations.

Open Scope Z_scope.
Open Scope string_scope.

(** ** Go values *)

(** A non-nil pointer: the address and the object found there.  Copying an
    object yields another address, so equality of pointers is identity of
    objects. *)
Record Ptr (A : Type) : Type := mkPtr { addr : N; pointee : A }.

Arguments mkPtr {A} addr pointee.
Arguments addr {A} p.
Arguments pointee {A} p.

(** Go's [int] on the 64-bit targets the controller is built for. *)
Module GoInt.

Definition bits : Z := 64.
Definition MinInt : Z := - 2 ^ (bits - 1).
Definition MaxInt : Z := 2 ^ (bits - 1) - 1.

Definition in_range (z : Z) : Prop := MinInt <= z <= MaxInt.

(** Two's complement wrap-around of an exact result. *)
Definition wrap (z : Z) : Z := (z - MinInt) mod 2 ^ bits + MinInt.

Definition add (a b : Z) : Z := wrap (a + b).

End GoInt.

(** The [error] interface: the values that flow through this function are
    API status errors, told apart by their reason, and errors carrying a
    formatted message. *)
Inductive error : Type :=
| StatusError (reason : string) (message : string)
| errorString (message : string).

Module apierrors.

Definition StatusReasonNotFound : string := "NotFound".

(** [IsNotFound(err)]; false on a nil error. *)
Definition IsNotFound (err : option error) : bool :=
  match err with
  | Some (StatusError reason _) => String.eqb reason StatusReasonNotFound
  | _ => false
  end.

Definition quote : string := String (ascii_of_nat 34) EmptyString.

Definition NewNotFound (resource name : string) : error :=
  StatusError StatusReasonNotFound
    (resource ++ " " ++ quote ++ name ++ quote ++ " not found").

End apierrors.

Module fmt.

(** The verb [%v] applied to an [int]: signed decimal. *)
Definition Sprint (v : Z) : string := NilEmpty.string_of_int (Z.to_int v).

(** A format with one [%v] verb and its operand. *)
Fixpoint Sprintf (format : string) (operand : string) : string :=
  match format with
  | String "%" (String "v" rest) => operand ++ rest
  | String c rest => String c (Sprintf rest operand)
  | EmptyString => EmptyString
  end.

Definition Errorf (format : string) (v : Z) : error :=
  errorString (Sprintf format (Sprint v)).

End fmt.

(** ** API objects *)

(** Modelled from the spec: the API types of the packages [cmapi] and
    [corev1] lie outside this file.  Section 3 of the specification
    gives a certificate an identity (namespace and name), an optional
    revision and the name of its secret; an issuance request an identity, a
    reference to the certificate that owns it, an integer revision and
    condition flags nobody here looks at; a secret an identity and an
    opaque payload. *)
Record Identity : Type := { Namespace : string; Name : string }.

Module cmapi.

Record Certificate : Type := {
  ID : Identity;
  Spec_SecretName : string;
  Status_Revision : option Z
}.

Record CertificateRequest : Type := {
  ReqID : Identity;
  OwnerRef : Identity;
  Revision : Z;
  Conditions : list (string * bool)
}.

End cmapi.

Module corev1.

Record Secret : Type := {
  ID : Identity;
  Data : list (string * string)
}.

End corev1.

Definition identity_eqb (a b : Identity) : bool :=
  String.eqb (Namespace a) (Namespace b) && String.eqb (Name a) (Name b).

(** ** Predicates and the filtered listing *)

Module predicate.

Definition Func : Type := Ptr cmapi.CertificateRequest -> bool.

(** Modelled from the spec: [predicate.Funcs.Evaluate] lies outside
    this file; the named predicates are combined with logical AND
    (section 9). *)
Definition Evaluate (funcs : list Func) (obj : Ptr cmapi.CertificateRequest) : bool :=
  forallb (fun f => f obj) funcs.

(** Modelled from the spec: [predicate.ResourceOwnedBy] lies
    outside this file; a request is owned by the certificate its owner
    reference identifies (section 3). *)
Definition ResourceOwnedBy (owner : Ptr cmapi.Certificate) : Func :=
  fun obj =>
    identity_eqb (cmapi.OwnerRef (pointee obj)) (cmapi.ID (pointee owner)).

(** Modelled from the spec: [predicate.CertificateRequestRevision] lies
    outside this file; an exact match on the revision
    (section 6). *)
Definition CertificateRequestRevision (revision : Z) : Func :=
  fun obj => Z.eqb (cmapi.Revision (pointee obj)) revision.

End predicate.

Module certificates.

(** Modelled from the spec: [ListCertificateRequestsMatchingPredicates] lies
    outside this file; it lists the requests of the namespace
    lister and keeps, in order, those that every predicate accepts
    (sections 2 and 6); a failure of the lister is passed on. *)
Definition ListCertificateRequestsMatchingPredicates
    (lister : error + list (Ptr cmapi.CertificateRequest))
    (predicates : list predicate.Func)
  : error + list (Ptr cmapi.CertificateRequest) :=
  match lister with
  | inl err => inl err
  | inr reqs => inr (filter (predicate.Evaluate predicates) reqs)
  end.

End certificates.

(** ** The gatherer *)

Module policies.

(** Modelled from the spec: the type [Input] lies outside this file; it is
    the resolved view of section 3, a certificate with an optional secret,
    an optional current request and an optional next request, under the
    field names the function fills in.  [Input{}] has nil in every field. *)
Record Input : Type := {
  Certificate : option (Ptr cmapi.Certificate);
  Secret : option (Ptr corev1.Secret);
  CurrentRevisionRequest : option (Ptr cmapi.CertificateRequest);
  NextRevisionRequest : option (Ptr cmapi.CertificateRequest)
}.

Definition Input_zero : Input :=
  {| Certificate := None; Secret := None;
     CurrentRevisionRequest := None; NextRevisionRequest := None |}.

(** The two listers are interfaces.  [CertificateRequestLister ns] stands for
    [CertificateRequests(ns).List(labels.Everything())] and
    [SecretLister ns name] for [Secrets(ns).Get(name)]; each either fails
    with an error or yields its objects. *)
Record Gatherer : Type := {
  CertificateRequestLister : string -> error + list (Ptr cmapi.CertificateRequest);
  SecretLister : string -> string -> error + Ptr corev1.Secret
}.

(** The two places where requests are listed. *)
Inductive Window : Type := Current | Next.

(** What the function does to the outside: a lookup of a secret, a listing
    of the requests a certificate owns at one revision, a debug log line.
    The lookups are recorded with what they yielded. *)
Inductive Event : Type :=
| SecretsGet (namespace name : string) (res : error + Ptr corev1.Secret)
| ListRequests (w : Window) (namespace : string) (owner : Ptr cmapi.Certificate)
    (revision : Z) (res : error + list (Ptr cmapi.CertificateRequest))
| DebugInfo (msg : string) (revision : Z).

Definition Trace : Type := list Event.

(** What the function returns: [(Input, error)]. *)
Definition Outcome : Type := (Input * option error)%type.

(** A computation inside the function body: the events so far and either
    the value of a [return] statement that ended the function or the value
    the computation continues with. *)
Definition Exec (A : Type) : Type := (Trace * (Outcome + A))%type.

Definition ret {A : Type} (a : A) : Exec A := ([], inr a).

Definition Return {A : Type} (o : Outcome) : Exec A := ([], inl o).

Definition bind {A B : Type} (m : Exec A) (k : A -> Exec B) : Exec B :=
  match m with
  | (t, inl o) => (t, inl o)
  | (t, inr a) => let (t', r) := k a in ((t ++ t')%list, r)
  end.

Definition emit (e : Event) : Exec unit := ([e], inr tt).

Definition when (b : bool) (m : Exec unit) : Exec unit :=
  if b then m else ret tt.

Definition run (m : Exec Outcome) : Trace * Outcome :=
  match m with
  | (t, inl o) => (t, o)
  | (t, inr o) => (t, o)
  end.

Notation "x <- m ;; k" := (bind m (fun x => k))
  (at level 61, m at next level, right associativity).
Notation "' pat <- m ;; k" := (bind m (fun x => match x with pat => k end))
  (at level 61, pat pattern, m at next level, right associativity).
Notation "m ;; k" := (bind m (fun _ => k))
  (at level 61, right associativity).

(** [(value, err)] as Go returns them: nil beside a non-nil error. *)
Definition ptr_err {A : Type} (r : error + Ptr A) : option (Ptr A) * option error :=
  match r with
  | inl err => (None, Some err)
  | inr p => (Some p, None)
  end.

Definition slice_err {A : Type} (r : error + list A) : list A * option error :=
  match r with
  | inl err => ([], Some err)
  | inr l => (l, None)
  end.

Definition isNil {A : Type} (o : option A) : bool :=
  match o with None => true | Some _ => false end.

(** [g.SecretLister.Secrets(namespace).Get(name)] *)
Definition Secrets_Get (g : Gatherer) (namespace name : string)
  : Exec (option (Ptr corev1.Secret) * option error) :=
  let res := SecretLister g namespace name in
  emit (SecretsGet namespace name res) ;; ret (ptr_err res).

(** The listing both windows make,
    [ListCertificateRequestsMatchingPredicates(
       g.CertificateRequestLister.CertificateRequests(crt.Namespace),
       labels.Everything(), predicate.ResourceOwnedBy(crt),
       predicate.CertificateRequestRevision(revision))]:
    the requests of the certificate's namespace that the certificate owns
    and that carry the given revision. *)
Definition owned_at_revision (g : Gatherer) (crt : Ptr cmapi.Certificate) (revision : Z)
  : error + list (Ptr cmapi.CertificateRequest) :=
  certificates.ListCertificateRequestsMatchingPredicates
    (CertificateRequestLister g (Namespace (cmapi.ID (pointee crt))))
    [predicate.ResourceOwnedBy crt; predicate.CertificateRequestRevision revision].

(** The listing as made at the place [w], recorded in the trace; [reqs] is
    nil beside a non-nil error. *)
Definition List_owned_at_revision (w : Window) (g : Gatherer)
    (crt : Ptr cmapi.Certificate) (revision : Z)
  : Exec (list (Ptr cmapi.CertificateRequest) * option error) :=
  let res := owned_at_revision g crt revision in
  emit (ListRequests w (Namespace (cmapi.ID (pointee crt))) crt revision res) ;;
  ret (slice_err res).

Definition log_Info (msg : string) (revision : Z) : Exec unit :=
  emit (DebugInfo msg revision).

Definition format_current : string :=
  "multiple CertificateRequests were found for the 'current' revision %v, issuance is skipped until there are no more duplicates".

Definition format_next : string :=
  "multiple CertificateRequests were found for the 'next' revision %v, issuance is skipped until there are no more duplicates".

Definition none_found_current : string :=
  "Found no CertificateRequest resources owned by this Certificate for the current revision".

Definition none_found_next : string :=
  "Found no CertificateRequest resources owned by this Certificate for the next revision".

(** [DataForCertificate], statement by statement.  [crt] is not nil.  The
    context is only asked for its logger, and the logger only writes the
    two debug lines. *)
Definition DataForCertificate (g : Gatherer) (crt : Ptr cmapi.Certificate)
  : Trace * Outcome :=
  let crt_Namespace := Namespace (cmapi.ID (pointee crt)) in
  let crt_Spec_SecretName := cmapi.Spec_SecretName (pointee crt) in
  let crt_Status_Revision := cmapi.Status_Revision (pointee crt) in
  run (
    (* secret, err := g.SecretLister.Secrets(crt.Namespace).Get(...) *)
    '(secret, err) <- Secrets_Get g crt_Namespace crt_Spec_SecretName ;;
    (* if err != nil && !apierrors.IsNotFound(err) *)
    when (negb (isNil err) && negb (apierrors.IsNotFound err))
      (Return (Input_zero, err)) ;;
    (* var curCR *cmapi.CertificateRequest *)
    curCR <-
      match crt_Status_Revision with
      | Some revision =>
          (* if crt.Status.Revision != nil *)
          '(reqs, err) <- List_owned_at_revision Current g crt revision ;;
          when (negb (isNil err)) (Return (Input_zero, err)) ;;
          (* switch: len(reqs) > 1, len(reqs) == 1, len(reqs) == 0 *)
          if (1 <? List.length reqs)%nat then
            Return (Input_zero, Some (fmt.Errorf format_current revision))
          else if (List.length reqs =? 1)%nat then
            ret (nth_error reqs 0)
          else if (List.length reqs =? 0)%nat then
            log_Info none_found_current revision ;; ret None
          else ret None
      | None => ret None
      end ;;
    (* nextCRRevision := 1; if crt.Status.Revision != nil { ... + 1 } *)
    let nextCRRevision :=
      match crt_Status_Revision with
      | Some revision => GoInt.add revision 1
      | None => 1
      end in
    '(reqs, err) <- List_owned_at_revision Next g crt nextCRRevision ;;
    when (negb (isNil err)) (Return (Input_zero, err)) ;;
    (* var nextCR *cmapi.CertificateRequest; the same switch *)
    nextCR <-
      (if (1 <? List.length reqs)%nat then
         Return (Input_zero, Some (fmt.Errorf format_next nextCRRevision))
       else if (List.length reqs =? 1)%nat then
         ret (nth_error reqs 0)
       else if (List.length reqs =? 0)%nat then
         log_Info none_found_next nextCRRevision ;; ret None
       else ret None) ;;
    ret ({| Certificate := Some crt;
            Secret := secret;
            CurrentRevisionRequest := curCR;
            NextRevisionRequest := nextCR |}, None)).

End policies.

(** ** In-memory listers and sample objects *)

Module fixtures.

Import policies.

(** A lister over a fixed collection of secrets: the secret of that
    namespace and name, or a NotFound status error. *)
Definition secrets_in (secrets : list (Ptr corev1.Secret)) (namespace name : string)
  : error + Ptr corev1.Secret :=
  match find (fun s => identity_eqb (corev1.ID (pointee s))
                         {| Namespace := namespace; Name := name |}) secrets with
  | Some s => inr s
  | None => inl (apierrors.NewNotFound "secrets" name)
  end.

(** A lister over a fixed collection of requests: those of the namespace. *)
Definition requests_in (reqs : list (Ptr cmapi.CertificateRequest)) (namespace : string)
  : error + list (Ptr cmapi.CertificateRequest) :=
  inr (filter (fun r => String.eqb (Namespace (cmapi.ReqID (pointee r))) namespace) reqs).

Definition cached (secrets : list (Ptr corev1.Secret))
    (reqs : list (Ptr cmapi.CertificateRequest)) : Gatherer :=
  {| CertificateRequestLister := requests_in reqs;
     SecretLister := secrets_in secrets |}.

(** A gatherer whose secret lister fails with [err] on every lookup. *)
Definition secrets_failing (err : error)
    (reqs : list (Ptr cmapi.CertificateRequest)) : Gatherer :=
  {| CertificateRequestLister := requests_in reqs;
     SecretLister := fun _ _ => inl err |}.

(** A gatherer whose request lister fails with [err] on every listing. *)
Definition requests_failing (err : error)
    (secrets : list (Ptr corev1.Secret)) : Gatherer :=
  {| CertificateRequestLister := fun _ => inl err;
     SecretLister := secrets_in secrets |}.

Definition web : Identity := {| Namespace := "prod"; Name := "web" |}.
Definition api : Identity := {| Namespace := "prod"; Name := "api" |}.

Definition certificate (a : N) (id : Identity) (revision : option Z)
  : Ptr cmapi.Certificate :=
  mkPtr a {| cmapi.ID := id;
             cmapi.Spec_SecretName := "tls-secret";
             cmapi.Status_Revision := revision |}.

Definition request (a : N) (name : string) (owner : Identity) (revision : Z)
  : Ptr cmapi.CertificateRequest :=
  mkPtr a {| cmapi.ReqID := {| Namespace := Namespace owner; Name := name |};
             cmapi.OwnerRef := owner;
             cmapi.Revision := revision;
             cmapi.Conditions := [] |}.

Definition tls_secret (a : N) : Ptr corev1.Secret :=
  mkPtr a {| corev1.ID := {| Namespace := "prod"; Name := "tls-secret" |};
             corev1.Data := [("tls.crt", "PEM")] |}.

Definition timeout : error := StatusError "Timeout" "the server was unable to respond".

Definition staging : Identity := {| Namespace := "staging"; Name := "web" |}.

(** Two requests of [web] at revision 7 beside the secret. *)
Definition duplicates_at_7 : Gatherer :=
  cached [tls_secret 5] [request 10 "web-a" web 7; request 11 "web-b" web 7].

(** Two requests of [web] at revision 7 and two at revision 8. *)
Definition duplicates_at_7_and_8 : Gatherer :=
  cached [tls_secret 5]
    [request 10 "web-a" web 7; request 11 "web-b" web 7;
     request 12 "web-c" web 8; request 13 "web-d" web 8].

(** One request of [web] and one of [api], both at revision 1; no secret. *)
Definition first_issuance : Gatherer :=
  cached [] [request 10 "web-a" web 1; request 11 "api-a" api 1].

(** The same store with one more request in another namespace. *)
Definition first_issuance_elsewhere : Gatherer :=
  cached [] [request 10 "web-a" web 1; request 11 "api-a" api 1;
             request 12 "web-a" staging 1].

(** One request of [web] at revision 0 and one at revision 1. *)
Definition around_zero : Gatherer :=
  cached [tls_secret 5] [request 10 "web-a" web 0; request 11 "web-b" web 1].

Definition empty : Gatherer := cached [] [].

(** One request of [web] at each of the revisions 1, 2 and 3. *)
Definition three_revisions : Gatherer :=
  cached [tls_secret 5]
    [request 10 "web-a" web 1; request 11 "web-b" web 2; request 12 "web-c" web 3].

(** The same store with its first two requests in the other order. *)
Definition three_revisions_reordered : Gatherer :=
  cached [tls_secret 5]
    [request 11 "web-b" web 2; request 10 "web-a" web 1; request 12 "web-c" web 3].

(** The same store without the secret. *)
Definition three_revisions_no_secret : Gatherer :=
  cached []
    [request 10 "web-a" web 1; request 11 "web-b" web 2; request 12 "web-c" web 3].

(** A store whose request lister times out. *)
Definition listing_times_out : Gatherer :=
  requests_failing timeout [tls_secret 5].

(** Keeps the requests of a revision up to 2. *)
Definition up_to_revision_2 (r : Ptr cmapi.CertificateRequest) : bool :=
  (cmapi.Revision (pointee r) <=? 2)%Z.

(** The certificate [web] at a few revisions. *)
Definition web_new : Ptr cmapi.Certificate := certificate 1 web None.
Definition web_at_0 : Ptr cmapi.Certificate := certificate 1 web (Some 0).
Definition web_at_1 : Ptr cmapi.Certificate := certificate 1 web (Some 1).
Definition web_at_7 : Ptr cmapi.Certificate := certificate 1 web (Some 7).
Definition web_at_MaxInt : Ptr cmapi.Certificate :=
  certificate 1 web (Some 9223372036854775807).

End fixtures.

(** ** The resolution, step by step *)

(** The three steps of section 4.1 of the specification, written as plain
    case distinctions.  The revision of the next window is computed as the
    function computes it, in [int] arithmetic. *)

Module Spec.

Import policies.

(** The ambiguity error of a window: its message names the window and
    carries the revision that was queried. *)
Definition format_of (w : Window) : string :=
  match w with
  | Current => format_current
  | Next => format_next
  end.

Definition AmbiguityError (w : Window) (revision : Z) : error :=
  fmt.Errorf (format_of w) revision.

Definition none_found (w : Window) : string :=
  match w with
  | Current => none_found_current
  | Next => none_found_next
  end.

(** Step 1: an absent secret is no error, any other failure is. *)
Definition secret_lookup (res : error + Ptr corev1.Secret)
  : error + option (Ptr corev1.Secret) :=
  match res with
  | inr s => inr (Some s)
  | inl err => if apierrors.IsNotFound (Some err) then inr None else inl err
  end.

(** Steps 2 and 3: no match leaves the field nil, one match fills it, two or
    more are an ambiguity. *)
Definition disambiguate (w : Window) (revision : Z)
    (res : error + list (Ptr cmapi.CertificateRequest))
  : error + option (Ptr cmapi.CertificateRequest) :=
  match res with
  | inl err => inl err
  | inr [] => inr None
  | inr [req] => inr (Some req)
  | inr (_ :: _ :: _) => inl (AmbiguityError w revision)
  end.

(** The query of a window and what it logs. *)
Definition window_events (w : Window) (g : Gatherer) (crt : Ptr cmapi.Certificate)
    (revision : Z) : Trace :=
  let res := owned_at_revision g crt revision in
  ListRequests w (Namespace (cmapi.ID (pointee crt))) crt revision res ::
  match res with
  | inr [] => [DebugInfo (none_found w) revision]
  | _ => []
  end.

(** The revision asked of the next window: 1 without a revision, else the
    function's [*crt.Status.Revision + 1]. *)
Definition nextRevision (revision : option Z) : Z :=
  match revision with
  | None => 1
  | Some r => GoInt.add r 1
  end.

(** Step 3 and the assembly of the view. *)
Definition next_window (g : Gatherer) (crt : Ptr cmapi.Certificate)
    (secret : option (Ptr corev1.Secret))
    (current : option (Ptr cmapi.CertificateRequest)) : Trace * Outcome :=
  let revision := nextRevision (cmapi.Status_Revision (pointee crt)) in
  (window_events Next g crt revision,
   match disambiguate Next revision (owned_at_revision g crt revision) with
   | inl err => (Input_zero, Some err)
   | inr next =>
       ({| Certificate := Some crt; Secret := secret;
           CurrentRevisionRequest := current; NextRevisionRequest := next |}, None)
   end).

(** Step 2, then step 3. *)
Definition current_window (g : Gatherer) (crt : Ptr cmapi.Certificate)
    (secret : option (Ptr corev1.Secret)) : Trace * Outcome :=
  match cmapi.Status_Revision (pointee crt) with
  | None => next_window g crt secret None
  | Some revision =>
      match disambiguate Current revision (owned_at_revision g crt revision) with
      | inl err => (window_events Current g crt revision, (Input_zero, Some err))
      | inr current =>
          let (t, o) := next_window g crt secret current in
          ((window_events Current g crt revision ++ t)%list, o)
      end
  end.

(** Step 1, then the windows. *)
Definition resolve (g : Gatherer) (crt : Ptr cmapi.Certificate) : Trace * Outcome :=
  let namespace := Namespace (cmapi.ID (pointee crt)) in
  let name := cmapi.Spec_SecretName (pointee crt) in
  let res := SecretLister g namespace name in
  match secret_lookup res with
  | inl err => ([SecretsGet namespace name res], (Input_zero, Some err))
  | inr secret =>
      let (t, o) := current_window g crt secret in
      (SecretsGet namespace name res :: t, o)
  end.

(** What is returned when the current window, if there is one, is asked at
    [current] and the next window at [next]: the three steps in order, the
    first error ending the resolution with the zero view. *)
Definition outcome_at (g : Gatherer) (crt : Ptr cmapi.Certificate)
    (current : option Z) (next : Z) : Outcome :=
  match secret_lookup (SecretLister g (Namespace (cmapi.ID (pointee crt)))
                         (cmapi.Spec_SecretName (pointee crt))) with
  | inl err => (Input_zero, Some err)
  | inr secret =>
      match match current with
            | None => inr None
            | Some revision =>
                disambiguate Current revision (owned_at_revision g crt revision)
            end with
      | inl err => (Input_zero, Some err)
      | inr cur =>
          match disambiguate Next next (owned_at_revision g crt next) with
          | inl err => (Input_zero, Some err)
          | inr nxt =>
              ({| Certificate := Some crt; Secret := secret;
                  CurrentRevisionRequest := cur; NextRevisionRequest := nxt |},
               None)
          end
      end
  end.

End Spec.

(** ** Reading a result *)

Module Obs.

Import policies.

Definition Window_eqb (a b : Window) : bool :=
  match a, b with
  | Current, Current | Next, Next => true
  | _, _ => false
  end.

(** The queries made for a window, in order: the revision asked for and
    what the store yielded. *)
Fixpoint queries (w : Window) (t : Trace)
  : list (Z * (error + list (Ptr cmapi.CertificateRequest))) :=
  match t with
  | [] => []
  | ListRequests w' _ _ revision res :: t' =>
      if Window_eqb w w' then (revision, res) :: queries w t' else queries w t'
  | _ :: t' => queries w t'
  end.

(** The window of the last query made, if any was. *)
Fixpoint last_window (t : Trace) : option Window :=
  match t with
  | [] => None
  | ListRequests w _ _ _ _ :: t' =>
      match last_window t' with
      | Some w' => Some w'
      | None => Some w
      end
  | _ :: t' => last_window t'
  end.

(** An error was raised at window [w]: the call ended in an error and [w]
    is the last window it queried. *)
Definition raised_at (w : Window) (r : Trace * Outcome) : bool :=
  negb (isNil (snd (snd r))) &&
  match last_window (fst r) with
  | Some w' => Window_eqb w w'
  | None => false
  end.

(** The field of the view that belongs to a window. *)
Definition field (w : Window) (i : Input) : option (Ptr cmapi.CertificateRequest) :=
  match w with
  | Current => CurrentRevisionRequest i
  | Next => NextRevisionRequest i
  end.

(** The secret lookup lets the call go on: the secret is there, or it is
    not found. *)
Definition secret_ok (g : Gatherer) (crt : Ptr cmapi.Certificate) : bool :=
  match SecretLister g (Namespace (cmapi.ID (pointee crt)))
          (cmapi.Spec_SecretName (pointee crt)) with
  | inr _ => true
  | inl err => apierrors.IsNotFound (Some err)
  end.

(** The gatherer whose request lister yields only the requests that [keep]
    accepts: the store with the other requests taken out. *)
Definition restrict (keep : Ptr cmapi.CertificateRequest -> bool) (g : Gatherer)
  : Gatherer :=
  {| CertificateRequestLister := fun namespace =>
       match CertificateRequestLister g namespace with
       | inl err => inl err
       | inr reqs => inr (filter keep reqs)
       end;
     SecretLister := SecretLister g |}.

(** The windows asked, in the order of the queries. *)
Fixpoint windows_asked (t : Trace) : list Window :=
  match t with
  | [] => []
  | ListRequests w _ _ _ _ :: t' => w :: windows_asked t'
  | _ :: t' => windows_asked t'
  end.

(** The lookups of a secret: namespace, name and what the lister yielded. *)
Fixpoint secret_lookups (t : Trace)
  : list (string * string * (error + Ptr corev1.Secret)) :=
  match t with
  | [] => []
  | SecretsGet namespace name res :: t' => (namespace, name, res) :: secret_lookups t'
  | _ :: t' => secret_lookups t'
  end.

(** The debug lines written: message and revision. *)
Fixpoint debug_lines (t : Trace) : list (string * Z) :=
  match t with
  | [] => []
  | DebugInfo msg revision :: t' => (msg, revision) :: debug_lines t'
  | _ :: t' => debug_lines t'
  end.

(** A listing that ends the call: an error of the lister, or two or more
    requests. *)
Definition failed (res : error + list (Ptr cmapi.CertificateRequest)) : bool :=
  match res with
  | inl _ => true
  | inr reqs => (1 <? List.length reqs)%nat
  end.

(** The windows asked after the first listing that failed. *)
Fixpoint asked_after_failure (t : Trace) : list Window :=
  match t with
  | [] => []
  | ListRequests _ _ _ _ res :: t' =>
      if failed res then windows_asked t' else asked_after_failure t'
  | _ :: t' => asked_after_failure t'
  end.

(** The windows a call asks when nothing ends it early. *)
Definition windows_planned (crt : Ptr cmapi.Certificate) : list Window :=
  match cmapi.Status_Revision (pointee crt) with
  | Some _ => [Current; Next]
  | None => [Next]
  end.

(** The gatherer with another request lister and the same secret lister. *)
Definition with_requests
    (lister : string -> error + list (Ptr cmapi.CertificateRequest)) (g : Gatherer)
  : Gatherer :=
  {| CertificateRequestLister := lister; SecretLister := SecretLister g |}.

End Obs.

Import policies.

Arguments apierrors.IsNotFound : simpl never.
Arguments fmt.Errorf : simpl never.
Arguments Spec.AmbiguityError : simpl never.
Arguments owned_at_revision : simpl never.

(** ** Case analysis of a call *)

(** The tactics work on the goal alone: what is known of a call is put
    back into the goal before its cases are taken apart. *)
Ltac unfold_resolve :=
  unfold Spec.resolve, Spec.current_window, Spec.next_window, Spec.window_events,
    Spec.secret_lookup, Spec.nextRevision, Obs.secret_ok, Obs.raised_at.

Ltac split_secret g :=
  match goal with
  | |- context [SecretLister g ?ns ?n] =>
      let e := fresh "e" in
      destruct (SecretLister g ns n) as [e|?s];
      [destruct (apierrors.IsNotFound (Some e))|]
  end.

Ltac split_revision crt :=
  try match goal with
  | |- context [cmapi.Status_Revision (pointee crt)] =>
      destruct (cmapi.Status_Revision (pointee crt)) as [?r|]
  end.

Ltac split_windows g crt :=
  repeat match goal with
  | |- context [owned_at_revision g crt ?r] =>
      let x := fresh "res" in
      remember (owned_at_revision g crt r) as x eqn:?;
      destruct x as [?e|[|?p [|?q ?l]]]
  end.

Ltac resolve_cases g crt :=
  unfold_resolve; split_secret g; split_revision crt; split_windows g crt;
  cbn [fst snd Obs.queries Obs.last_window Obs.field Obs.Window_eqb
       Spec.disambiguate app isNil negb andb In List.length
       Certificate Secret CurrentRevisionRequest NextRevisionRequest Input_zero].

Ltac close_queries :=
  repeat match goal with
  | H : _ \/ _ |- _ => destruct H
  | H : False |- _ => destruct H
  | H : (_, _) = (_, _) |- _ => injection H as ? ?; subst
  | H : inr _ = inr _ |- _ => injection H as ?; subst
  | H : inl _ = inr _ |- _ => discriminate H
  | H : inr _ = inl _ |- _ => discriminate H
  | H : Some _ = Some _ |- _ => injection H as ?; subst
  | H : Some _ = None |- _ => discriminate H
  | H : None = Some _ |- _ => discriminate H
  | H : true = false |- _ => discriminate H
  | H : false = true |- _ => discriminate H
  end.

Ltac trace_cases g crt :=
  resolve_cases g crt;
  cbn [Obs.windows_asked Obs.secret_lookups Obs.debug_lines Obs.windows_planned
       Spec.none_found firstn hd_error In app].

Ltac close_pairs :=
  repeat match goal with
  | H : _ \/ _ |- _ => destruct H
  | H : False |- _ => destruct H
  | H : (_, _) = (_, _) |- _ => inversion H; subst; clear H
  end.

(** * Properties *)

(** The function computes the step-by-step resolution, event for event. *)
Lemma DataForCertificate_resolve (g : Gatherer) (crt : Ptr cmapi.Certificate) :
  DataForCertificate g crt = Spec.resolve g crt.
Proof.
  unfold DataForCertificate, Spec.resolve, Spec.current_window, Spec.next_window,
    Spec.window_events, Spec.secret_lookup, Secrets_Get, List_owned_at_revision.
  destruct (SecretLister g _ _) as [e|s]; simpl.
  - destruct (apierrors.IsNotFound (Some e)); simpl; [|reflexivity].
    destruct (cmapi.Status_Revision (pointee crt)) as [r|]; simpl.
    + destruct (owned_at_revision g crt r) as [e1|[|p [|q l]]]; simpl; try reflexivity;
        destruct (owned_at_revision g crt (GoInt.add r 1)) as [e2|[|p' [|q' l']]];
        reflexivity.
    + destruct (owned_at_revision g crt 1) as [e2|[|p' [|q' l']]]; reflexivity.
  - destruct (cmapi.Status_Revision (pointee crt)) as [r|]; simpl.
    + destruct (owned_at_revision g crt r) as [e1|[|p [|q l]]]; simpl; try reflexivity;
        destruct (owned_at_revision g crt (GoInt.add r 1)) as [e2|[|p' [|q' l']]];
        reflexivity.
    + destruct (owned_at_revision g crt 1) as [e2|[|p' [|q' l']]]; reflexivity.
Qed.

(** ** Arithmetic of [int] *)

Lemma GoInt_add_exact (a b : Z) :
  GoInt.in_range (a + b) -> GoInt.add a b = a + b.
Proof.
  unfold GoInt.in_range, GoInt.add, GoInt.wrap, GoInt.MinInt, GoInt.MaxInt, GoInt.bits.
  intros H. rewrite Z.mod_small; lia.
Qed.

Lemma GoInt_add_MaxInt : GoInt.add GoInt.MaxInt 1 = GoInt.MinInt.
Proof. reflexivity. Qed.

(** ** Error messages *)

Lemma length_append (s t : string) :
  String.length (s ++ t) = (String.length s + String.length t)%nat.
Proof. induction s as [|c s IH]; simpl; [reflexivity | now rewrite IH]. Qed.

Lemma append_cancel_r (s s' t : string) : s ++ t = s' ++ t -> s = s'.
Proof.
  intros H.
  assert (L : String.length s = String.length s').
  { apply (f_equal String.length) in H. rewrite !length_append in H. lia. }
  revert s' H L. induction s as [|c s IH]; intros [|c' s'] H L; simpl in *;
    try discriminate; [reflexivity|].
  injection H as -> H. f_equal. apply IH; [assumption|lia].
Qed.

Lemma Sprint_inj (a b : Z) : fmt.Sprint a = fmt.Sprint b -> a = b.
Proof.
  unfold fmt.Sprint. intros H.
  apply (f_equal NilEmpty.int_of_string) in H.
  rewrite !NilEmpty.isi in H. injection H as H.
  apply to_int_inj in H. exact H.
Qed.

Lemma AmbiguityError_inj (w w' : Window) (r r' : Z) :
  Spec.AmbiguityError w r = Spec.AmbiguityError w' r' -> w = w' /\ r = r'.
Proof.
  unfold Spec.AmbiguityError, fmt.Errorf. intros H. injection H as H.
  destruct w, w'; simpl in H; try discriminate H.
  - split; [reflexivity|]. injection H as H.
    apply append_cancel_r in H. apply Sprint_inj, H.
  - split; [reflexivity|]. injection H as H.
    apply append_cancel_r in H. apply Sprint_inj; exact H.
Qed.

(** ** Ambiguity *)

(** C1.  When a window is queried and the store yields two or more requests
    owned by the certificate, the call returns the zero view, with no
    request picked, and the ambiguity error of that window with the revision
    that was queried; the error is the same whatever the number of
    duplicates, and its message determines the window and the revision. *)
Theorem ambiguity_is_fatal (g : Gatherer) (crt : Ptr cmapi.Certificate)
    (w : Window) (revision : Z) (reqs : list (Ptr cmapi.CertificateRequest)) :
  In (revision, inr reqs) (Obs.queries w (fst (DataForCertificate g crt))) ->
  (2 <= List.length reqs)%nat ->
  snd (DataForCertificate g crt) = (Input_zero, Some (Spec.AmbiguityError w revision))
  /\ (forall w' revision',
        Spec.AmbiguityError w' revision' = Spec.AmbiguityError w revision ->
        w' = w /\ revision' = revision).
Proof.
  intros Hin Hlen. split; [|intros w' r'; apply AmbiguityError_inj].
  revert Hin Hlen. rewrite DataForCertificate_resolve.
  destruct w; resolve_cases g crt; intros Hin Hlen; close_queries;
    cbn [List.length] in Hlen; try lia; reflexivity.
Qed.

(** ** The windows and what they yield *)

(** Every query recorded is the listing of the requests the certificate
    owns at the revision asked for. *)
Lemma queries_sound (g : Gatherer) (crt : Ptr cmapi.Certificate)
    (w : Window) (revision : Z) res :
  In (revision, res) (Obs.queries w (fst (DataForCertificate g crt))) ->
  res = owned_at_revision g crt revision.
Proof.
  revert revision res. rewrite DataForCertificate_resolve.
  destruct w; resolve_cases g crt; intros revision res Hin; close_queries;
    assumption.
Qed.

(** A listing holds only requests that pass both predicates. *)
Lemma owned_at_revision_sound (g : Gatherer) (crt : Ptr cmapi.Certificate)
    (revision : Z) reqs req :
  owned_at_revision g crt revision = inr reqs ->
  In req reqs ->
  predicate.ResourceOwnedBy crt req = true
  /\ predicate.CertificateRequestRevision revision req = true.
Proof.
  unfold owned_at_revision, certificates.ListCertificateRequestsMatchingPredicates.
  destruct (CertificateRequestLister g _) as [e|all]; [discriminate|].
  intros H Hin. injection H as <-.
  apply filter_In in Hin. destruct Hin as [_ Hev].
  unfold predicate.Evaluate in Hev. simpl in Hev.
  rewrite !andb_true_iff in Hev. tauto.
Qed.

(** A listing holds every request of the namespace that passes both. *)
Lemma owned_at_revision_complete (g : Gatherer) (crt : Ptr cmapi.Certificate)
    (revision : Z) all req :
  CertificateRequestLister g (Namespace (cmapi.ID (pointee crt))) = inr all ->
  In req all ->
  predicate.ResourceOwnedBy crt req = true ->
  predicate.CertificateRequestRevision revision req = true ->
  exists reqs, owned_at_revision g crt revision = inr reqs /\ In req reqs.
Proof.
  intros Hall Hin Ho Hr.
  unfold owned_at_revision, certificates.ListCertificateRequestsMatchingPredicates.
  rewrite Hall. eexists; split; [reflexivity|].
  apply filter_In. split; [assumption|].
  unfold predicate.Evaluate. simpl. now rewrite Ho, Hr.
Qed.

(** A request in a field of the view is the single request its window
    yielded. *)
Lemma field_from_query (g : Gatherer) (crt : Ptr cmapi.Certificate)
    (w : Window) req :
  Obs.field w (fst (snd (DataForCertificate g crt))) = Some req ->
  exists revision,
    In (revision, inr [req]) (Obs.queries w (fst (DataForCertificate g crt))).
Proof.
  rewrite DataForCertificate_resolve.
  destruct w; resolve_cases g crt; intros H; close_queries;
    eexists; cbn [In]; auto.
Qed.

(** ** A certificate without a revision *)

(** C2.  With a nil revision no query is made for the current window and
    the current request of what is returned is nil; a query for the next
    window asks for revision 1, and it is made as soon as the secret lookup
    lets the call go on.  Nothing is assumed of the stores. *)
Theorem nil_revision_windows (g : Gatherer) (crt : Ptr cmapi.Certificate) :
  cmapi.Status_Revision (pointee crt) = None ->
  Obs.queries Current (fst (DataForCertificate g crt)) = []
  /\ CurrentRevisionRequest (fst (snd (DataForCertificate g crt))) = None
  /\ (forall revision res,
        In (revision, res) (Obs.queries Next (fst (DataForCertificate g crt))) ->
        revision = 1)
  /\ (Obs.secret_ok g crt = true ->
      Obs.queries Next (fst (DataForCertificate g crt))
      = [(1, owned_at_revision g crt 1)]).
Proof.
  intros Hnil. rewrite DataForCertificate_resolve.
  unfold_resolve. rewrite Hnil.
  split_secret g; split_windows g crt; cbn; repeat split;
    try intros revision res Hin; try intros Hok; close_queries;
    try reflexivity; congruence.
Qed.

(** ** Zero, one or several requests in a window *)

(** C4.  When a window is queried and the store yields no request, the
    field of that window is nil and no error is raised at that window; when
    it yields exactly one, no error is raised at that window and the view
    the call returns holds that very pointer in the field.  A window with at
    most one request never ends the call in an error: the call succeeds, or
    the window is the current one and the error is raised later, at the next
    window. *)
Theorem window_cardinality (g : Gatherer) (crt : Ptr cmapi.Certificate)
    (w : Window) (revision : Z) (reqs : list (Ptr cmapi.CertificateRequest)) :
  In (revision, inr reqs) (Obs.queries w (fst (DataForCertificate g crt))) ->
  (reqs = [] ->
     Obs.field w (fst (snd (DataForCertificate g crt))) = None
     /\ Obs.raised_at w (DataForCertificate g crt) = false)
  /\ (forall req, reqs = [req] ->
        Obs.raised_at w (DataForCertificate g crt) = false
        /\ (snd (snd (DataForCertificate g crt)) = None ->
            Obs.field w (fst (snd (DataForCertificate g crt))) = Some req))
  /\ ((List.length reqs <= 1)%nat ->
      snd (snd (DataForCertificate g crt)) = None
      \/ (w = Current /\ Obs.raised_at Next (DataForCertificate g crt) = true)).
Proof.
  rewrite DataForCertificate_resolve.
  destruct w; resolve_cases g crt; intros Hin; close_queries;
    (split; [intros Hreqs | split; [intros req Hreqs | intros Hreqs]]);
    try discriminate Hreqs; cbn [List.length] in *; try lia;
    try (injection Hreqs as ->); repeat split; auto; discriminate.
Qed.

(** ** The secret *)

(** C5.  A secret that is not found is no error: the secret of what is
    returned is nil, the call goes on to the request windows, and if it
    ends in an error that error was raised at a window; when every listing
    made yields at most one request the call succeeds.  Any other error of
    the secret lister ends the call at once, with that same error. *)
Theorem secret_absence_is_no_error (g : Gatherer) (crt : Ptr cmapi.Certificate)
    (err : error) :
  SecretLister g (Namespace (cmapi.ID (pointee crt)))
    (cmapi.Spec_SecretName (pointee crt)) = inl err ->
  (apierrors.IsNotFound (Some err) = true ->
     Secret (fst (snd (DataForCertificate g crt))) = None
     /\ Obs.last_window (fst (DataForCertificate g crt)) <> None
     /\ (snd (snd (DataForCertificate g crt)) = None
         \/ exists w, Obs.raised_at w (DataForCertificate g crt) = true)
     /\ ((forall w revision res,
            In (revision, res) (Obs.queries w (fst (DataForCertificate g crt))) ->
            exists reqs, res = inr reqs /\ (List.length reqs <= 1)%nat) ->
         snd (snd (DataForCertificate g crt)) = None))
  /\ (apierrors.IsNotFound (Some err) = false ->
      DataForCertificate g crt
      = ([SecretsGet (Namespace (cmapi.ID (pointee crt)))
            (cmapi.Spec_SecretName (pointee crt)) (inl err)],
         (Input_zero, Some err))).
Proof.
  intros Hget. rewrite DataForCertificate_resolve.
  unfold Spec.resolve, Spec.secret_lookup. rewrite Hget.
  split; intros Hnf; rewrite Hnf; [|reflexivity].
  unfold Spec.current_window, Spec.next_window, Spec.window_events,
    Spec.nextRevision, Obs.raised_at.
  split_revision crt; split_windows g crt;
    cbn [fst snd Obs.queries Obs.last_window Obs.field Obs.Window_eqb
         Spec.disambiguate app isNil negb andb In List.length
         Certificate Secret CurrentRevisionRequest NextRevisionRequest Input_zero];
    (split; [reflexivity|]); (split; [discriminate|]);
    (split; [first [ left; reflexivity | right; now exists Current
                   | right; now exists Next ] |]);
    intros Hall; try reflexivity; exfalso;
    first [ destruct (Hall Current _ _ (or_introl eq_refl)) as (? & Heq & Hle);
            first [ discriminate Heq
                  | injection Heq as <-; cbn [List.length] in Hle; lia ]
          | destruct (Hall Next _ _ (or_introl eq_refl)) as (? & Heq & Hle);
            first [ discriminate Heq
                  | injection Heq as <-; cbn [List.length] in Hle; lia ] ].
Qed.

(** ** Errors *)

(** C7.  Whenever the call returns an error, be it an error of a store or
    an ambiguity in either window, the view beside it is [Input{}]: every
    field is nil, the certificate and a secret that was found included. *)
Theorem error_leaves_nothing (g : Gatherer) (crt : Ptr cmapi.Certificate)
    (err : error) :
  snd (snd (DataForCertificate g crt)) = Some err ->
  fst (snd (DataForCertificate g crt)) = Input_zero
  /\ Secret (fst (snd (DataForCertificate g crt))) = None.
Proof.
  rewrite DataForCertificate_resolve.
  resolve_cases g crt; intros Herr; try discriminate Herr; split; reflexivity.
Qed.

(** C8.  With a revision [R] and two or more owned requests both at [R] and
    at the revision after it, the next window is never queried and the call
    ends in an error; when the secret lookup lets the call reach the
    windows, the call makes the current query and returns the ambiguity
    error of the current window. *)
Theorem current_ambiguity_first (g : Gatherer) (crt : Ptr cmapi.Certificate)
    (R : Z) (current next : list (Ptr cmapi.CertificateRequest)) :
  cmapi.Status_Revision (pointee crt) = Some R ->
  owned_at_revision g crt R = inr current ->
  (2 <= List.length current)%nat ->
  owned_at_revision g crt (GoInt.add R 1) = inr next ->
  (2 <= List.length next)%nat ->
  Obs.queries Next (fst (DataForCertificate g crt)) = []
  /\ snd (snd (DataForCertificate g crt)) <> None
  /\ (Obs.secret_ok g crt = true ->
      DataForCertificate g crt
      = ([SecretsGet (Namespace (cmapi.ID (pointee crt)))
            (cmapi.Spec_SecretName (pointee crt))
            (SecretLister g (Namespace (cmapi.ID (pointee crt)))
               (cmapi.Spec_SecretName (pointee crt)));
          ListRequests Current (Namespace (cmapi.ID (pointee crt))) crt R
            (inr current)],
         (Input_zero, Some (Spec.AmbiguityError Current R)))).
Proof.
  intros HR Hc Hlc Hn Hln. rewrite DataForCertificate_resolve.
  unfold_resolve. rewrite HR, Hc.
  destruct current as [|p [|q l]]; cbn [List.length] in Hlc; try lia.
  split_secret g; cbn; repeat split; try discriminate; reflexivity.
Qed.

(** ** The revisions of the two windows *)

(** What is returned is the outcome of the three steps of the
    specification, the current window asked at the certificate's revision
    and the next at the revision after it. *)
Lemma DataForCertificate_outcome (g : Gatherer) (crt : Ptr cmapi.Certificate) :
  snd (DataForCertificate g crt)
  = Spec.outcome_at g crt (cmapi.Status_Revision (pointee crt))
      (Spec.nextRevision (cmapi.Status_Revision (pointee crt))).
Proof.
  rewrite DataForCertificate_resolve. unfold Spec.outcome_at.
  resolve_cases g crt; reflexivity.
Qed.

(** With a revision [R] the current window is asked at [R] and the next at
    [R + 1] as [int] computes it. *)
Lemma revision_windows (g : Gatherer) (crt : Ptr cmapi.Certificate) (R : Z) :
  cmapi.Status_Revision (pointee crt) = Some R ->
  (forall revision res,
     In (revision, res) (Obs.queries Current (fst (DataForCertificate g crt))) ->
     revision = R)
  /\ (forall revision res,
        In (revision, res) (Obs.queries Next (fst (DataForCertificate g crt))) ->
        revision = GoInt.add R 1)
  /\ (Obs.secret_ok g crt = true ->
      Obs.queries Current (fst (DataForCertificate g crt))
      = [(R, owned_at_revision g crt R)])
  /\ (Obs.secret_ok g crt = true ->
      (exists cur,
         Spec.disambiguate Current R (owned_at_revision g crt R) = inr cur) ->
      Obs.queries Next (fst (DataForCertificate g crt))
      = [(GoInt.add R 1, owned_at_revision g crt (GoInt.add R 1))]).
Proof.
  intros HR. rewrite DataForCertificate_resolve.
  unfold_resolve. rewrite HR.
  split_secret g; split_windows g crt; cbn; repeat split;
    try intros revision res Hin; try intros Hok; try intros [cur Hcur];
    close_queries; try reflexivity; try discriminate; congruence.
Qed.

(** C3, as amended.  With a revision [R] from 1 up to, but not including,
    the largest [int], every query for the current window asks for [R] and
    every query for the next window asks for [R + 1]; the current query is
    made once the secret lookup lets the call go on, and the next query once
    the current window has not ended the call. *)
Theorem revision_windows_in_range (g : Gatherer) (crt : Ptr cmapi.Certificate)
    (R : Z) :
  cmapi.Status_Revision (pointee crt) = Some R ->
  1 <= R -> R < GoInt.MaxInt ->
  (forall revision res,
     In (revision, res) (Obs.queries Current (fst (DataForCertificate g crt))) ->
     revision = R)
  /\ (forall revision res,
        In (revision, res) (Obs.queries Next (fst (DataForCertificate g crt))) ->
        revision = R + 1)
  /\ (Obs.secret_ok g crt = true ->
      Obs.queries Current (fst (DataForCertificate g crt))
      = [(R, owned_at_revision g crt R)])
  /\ (Obs.secret_ok g crt = true ->
      (exists cur,
         Spec.disambiguate Current R (owned_at_revision g crt R) = inr cur) ->
      Obs.queries Next (fst (DataForCertificate g crt))
      = [(R + 1, owned_at_revision g crt (R + 1))]).
Proof.
  intros HR Hlo Hhi.
  assert (Hadd : GoInt.add R 1 = R + 1).
  { apply GoInt_add_exact. unfold GoInt.in_range, GoInt.MinInt, GoInt.MaxInt in *.
    simpl in *. lia. }
  rewrite <- Hadd. apply revision_windows. exact HR.
Qed.

(** C9.  A revision [R] below 1, zero or negative, is taken as it is: the
    current window is asked at [R] and the next at [R + 1], and what is
    returned is the outcome of the same steps, with none or one or several
    requests in a window treated as for any other revision.  No error comes
    from the revision itself. *)
Theorem revision_below_one (g : Gatherer) (crt : Ptr cmapi.Certificate) (R : Z) :
  cmapi.Status_Revision (pointee crt) = Some R ->
  GoInt.MinInt <= R -> R < 1 ->
  (forall revision res,
     In (revision, res) (Obs.queries Current (fst (DataForCertificate g crt))) ->
     revision = R)
  /\ (forall revision res,
        In (revision, res) (Obs.queries Next (fst (DataForCertificate g crt))) ->
        revision = R + 1)
  /\ (Obs.secret_ok g crt = true ->
      Obs.queries Current (fst (DataForCertificate g crt))
      = [(R, owned_at_revision g crt R)])
  /\ (Obs.secret_ok g crt = true ->
      (exists cur,
         Spec.disambiguate Current R (owned_at_revision g crt R) = inr cur) ->
      Obs.queries Next (fst (DataForCertificate g crt))
      = [(R + 1, owned_at_revision g crt (R + 1))])
  /\ snd (DataForCertificate g crt) = Spec.outcome_at g crt (Some R) (R + 1).
Proof.
  intros HR Hlo Hhi.
  assert (Hadd : GoInt.add R 1 = R + 1).
  { apply GoInt_add_exact. unfold GoInt.in_range, GoInt.MinInt, GoInt.MaxInt in *.
    simpl in *. lia. }
  rewrite <- Hadd.
  destruct (revision_windows g crt R HR) as (H1 & H2 & H3 & H4).
  repeat split; try assumption.
  rewrite DataForCertificate_outcome, HR. reflexivity.
Qed.

(** ** Ownership *)

Lemma filter_filter_absorb (A : Type) (f keep : A -> bool) (l : list A) :
  (forall a, f a = true -> keep a = true) ->
  filter f (filter keep l) = filter f l.
Proof.
  intros Himp. induction l as [|a l IH]; [reflexivity|].
  cbn [filter]. destruct (keep a) eqn:Hk; cbn [filter]; rewrite IH.
  - reflexivity.
  - destruct (f a) eqn:Hf; [|reflexivity].
    rewrite (Himp a Hf) in Hk. discriminate.
Qed.

(** Taking requests the certificate does not own out of the store changes
    no listing. *)
Lemma owned_at_revision_restrict (keep : Ptr cmapi.CertificateRequest -> bool)
    (g : Gatherer) (crt : Ptr cmapi.Certificate) (revision : Z) :
  (forall r, predicate.ResourceOwnedBy crt r = true -> keep r = true) ->
  owned_at_revision (Obs.restrict keep g) crt revision
  = owned_at_revision g crt revision.
Proof.
  intros Hkeep.
  unfold owned_at_revision, certificates.ListCertificateRequestsMatchingPredicates.
  cbn [Obs.restrict CertificateRequestLister].
  destruct (CertificateRequestLister g _) as [e|all]; [reflexivity|].
  f_equal. apply filter_filter_absorb.
  intros r Hev. apply Hkeep.
  unfold predicate.Evaluate in Hev. cbn [forallb] in Hev.
  apply andb_true_iff in Hev. tauto.
Qed.

(** A call depends on the gatherer only through the lookup of the
    certificate's secret and the listings for the certificate. *)
Lemma DataForCertificate_ext (g1 g2 : Gatherer) (crt : Ptr cmapi.Certificate) :
  SecretLister g1 (Namespace (cmapi.ID (pointee crt)))
    (cmapi.Spec_SecretName (pointee crt))
  = SecretLister g2 (Namespace (cmapi.ID (pointee crt)))
      (cmapi.Spec_SecretName (pointee crt)) ->
  (forall revision,
     owned_at_revision g1 crt revision = owned_at_revision g2 crt revision) ->
  DataForCertificate g1 crt = DataForCertificate g2 crt.
Proof.
  intros Hs Hr.
  unfold DataForCertificate, Secrets_Get, List_owned_at_revision.
  rewrite Hs.
  destruct (cmapi.Status_Revision (pointee crt)) as [r|]; cbv beta iota;
    rewrite !Hr; reflexivity.
Qed.

(** C6.  A request whose owner reference does not identify the certificate
    is in no listing a window yields, so it adds nothing to the number of
    requests of a window; it is in neither the current nor the next field of
    what is returned; and with such requests taken out of the store the call
    does and returns the same.  This holds whatever the revision of the
    request, a revision that matches a window included. *)
Theorem foreign_requests_are_ignored (g : Gatherer) (crt : Ptr cmapi.Certificate)
    (req : Ptr cmapi.CertificateRequest) :
  predicate.ResourceOwnedBy crt req = false ->
  (forall w revision reqs,
     In (revision, inr reqs) (Obs.queries w (fst (DataForCertificate g crt))) ->
     ~ In req reqs)
  /\ CurrentRevisionRequest (fst (snd (DataForCertificate g crt))) <> Some req
  /\ NextRevisionRequest (fst (snd (DataForCertificate g crt))) <> Some req
  /\ (forall keep,
        keep req = false ->
        (forall r, predicate.ResourceOwnedBy crt r = true -> keep r = true) ->
        DataForCertificate (Obs.restrict keep g) crt = DataForCertificate g crt).
Proof.
  intros Hforeign.
  assert (Hq : forall w revision reqs,
             In (revision, inr reqs) (Obs.queries w (fst (DataForCertificate g crt))) ->
             ~ In req reqs).
  { intros w revision reqs Hin Hreq.
    apply queries_sound in Hin. symmetry in Hin.
    destruct (owned_at_revision_sound g crt revision reqs req Hin Hreq) as [Ho _].
    rewrite Ho in Hforeign. discriminate. }
  split; [exact Hq|].
  split; [|split].
  - intros Hcur. destruct (field_from_query g crt Current req Hcur) as [revision Hin].
    apply (Hq _ _ _ Hin). left; reflexivity.
  - intros Hnext. destruct (field_from_query g crt Next req Hnext) as [revision Hin].
    apply (Hq _ _ _ Hin). left; reflexivity.
  - intros keep _ Hkeep. apply DataForCertificate_ext; [reflexivity|].
    intros revision. apply owned_at_revision_restrict, Hkeep.
Qed.

(** ** Determinism *)

(** A listing depends on the request lister only through what it yields
    for the certificate's namespace. *)
Lemma owned_at_revision_ext (g1 g2 : Gatherer) (crt : Ptr cmapi.Certificate)
    (revision : Z) :
  CertificateRequestLister g1 (Namespace (cmapi.ID (pointee crt)))
  = CertificateRequestLister g2 (Namespace (cmapi.ID (pointee crt))) ->
  owned_at_revision g1 crt revision = owned_at_revision g2 crt revision.
Proof. intros H. unfold owned_at_revision. rewrite H. reflexivity. Qed.

(** C10.  Two calls for the same certificate whose stores hold the same
    contents, the same outcome of the lookup of the certificate's secret
    and the same requests in the certificate's namespace, make the same
    queries and return the same view and the same error; the certificate of
    a view returned without error is the pointer that was passed in. *)
Theorem resolve_deterministic (g1 g2 : Gatherer) (crt : Ptr cmapi.Certificate) :
  SecretLister g1 (Namespace (cmapi.ID (pointee crt)))
    (cmapi.Spec_SecretName (pointee crt))
  = SecretLister g2 (Namespace (cmapi.ID (pointee crt)))
      (cmapi.Spec_SecretName (pointee crt)) ->
  CertificateRequestLister g1 (Namespace (cmapi.ID (pointee crt)))
  = CertificateRequestLister g2 (Namespace (cmapi.ID (pointee crt))) ->
  DataForCertificate g1 crt = DataForCertificate g2 crt
  /\ (forall view,
        snd (DataForCertificate g1 crt) = (view, None) ->
        Certificate view = Some crt).
Proof.
  intros Hs Hr. split.
  - apply DataForCertificate_ext; [exact Hs|].
    intros revision. apply owned_at_revision_ext, Hr.
  - rewrite DataForCertificate_resolve.
    resolve_cases g1 crt; intros view H;
      first [ discriminate H | injection H as <-; reflexivity ].
Qed.

(** * The scenarios of the specification *)

(** Scenario 1: no revision, empty stores. *)
Example scenario_1 :
  snd (DataForCertificate fixtures.empty fixtures.web_new)
  = ({| Certificate := Some fixtures.web_new; Secret := None;
        CurrentRevisionRequest := None; NextRevisionRequest := None |}, None).
Proof. vm_compute. reflexivity. Qed.

(** Scenario 2: revision 1, one request of the certificate at revision 1. *)
Example scenario_2 :
  snd (DataForCertificate fixtures.first_issuance fixtures.web_at_1)
  = ({| Certificate := Some fixtures.web_at_1; Secret := None;
        CurrentRevisionRequest := Some (fixtures.request 10 "web-a" fixtures.web 1);
        NextRevisionRequest := None |}, None)
  /\ map fst (Obs.queries Next
                (fst (DataForCertificate fixtures.first_issuance fixtures.web_at_1)))
     = [2].
Proof. split; vm_compute; reflexivity. Qed.

(** Scenario 3: revision 7, two requests of the certificate at revision 7. *)
Example scenario_3 :
  snd (DataForCertificate fixtures.duplicates_at_7 fixtures.web_at_7)
  = (Input_zero,
     Some (errorString
       "multiple CertificateRequests were found for the 'current' revision 7, issuance is skipped until there are no more duplicates")).
Proof. vm_compute. reflexivity. Qed.

(** Scenario 4: no revision, one request of the certificate at revision 1. *)
Example scenario_4 :
  snd (DataForCertificate fixtures.first_issuance fixtures.web_new)
  = ({| Certificate := Some fixtures.web_new; Secret := None;
        CurrentRevisionRequest := None;
        NextRevisionRequest := Some (fixtures.request 10 "web-a" fixtures.web 1) |},
     None)
  /\ Obs.queries Current
       (fst (DataForCertificate fixtures.first_issuance fixtures.web_new)) = [].
Proof. split; vm_compute; reflexivity. Qed.

(** Scenario 5: the secret is absent, the other lookups succeed. *)
Example scenario_5 :
  SecretLister fixtures.first_issuance "prod" "tls-secret"
  = inl (apierrors.NewNotFound "secrets" "tls-secret")
  /\ snd (DataForCertificate fixtures.first_issuance fixtures.web_at_1)
     = ({| Certificate := Some fixtures.web_at_1; Secret := None;
           CurrentRevisionRequest :=
             Some (fixtures.request 10 "web-a" fixtures.web 1);
           NextRevisionRequest := None |}, None).
Proof. split; vm_compute; reflexivity. Qed.

(** A failing secret lister ends the call before any window is asked. *)
Example secret_store_failure :
  DataForCertificate
    (fixtures.secrets_failing fixtures.timeout
       [fixtures.request 10 "web-a" fixtures.web 7;
        fixtures.request 11 "web-b" fixtures.web 7])
    fixtures.web_at_7
  = ([SecretsGet "prod" "tls-secret" (inl fixtures.timeout)],
     (Input_zero, Some fixtures.timeout)).
Proof. vm_compute. reflexivity. Qed.

(** Two requests at the next revision: the error names the next window. *)
Example next_window_ambiguity :
  snd (DataForCertificate fixtures.duplicates_at_7
         (fixtures.certificate 1 fixtures.web (Some 6)))
  = (Input_zero, Some (Spec.AmbiguityError Next 7)).
Proof. vm_compute. reflexivity. Qed.

(** * The properties at sample inputs *)

(** Two requests at the current revision 7: the call is fatal, with the
    error of the current window at revision 7. *)
Lemma ambiguity_is_fatal_witness :
  In (7, inr [fixtures.request 10 "web-a" fixtures.web 7;
              fixtures.request 11 "web-b" fixtures.web 7])
    (Obs.queries Current
       (fst (DataForCertificate fixtures.duplicates_at_7 fixtures.web_at_7)))
  /\ (2 <= 2)%nat
  /\ snd (DataForCertificate fixtures.duplicates_at_7 fixtures.web_at_7)
     = (Input_zero, Some (Spec.AmbiguityError Current 7)).
Proof.
  assert (H1 : In (7, inr [fixtures.request 10 "web-a" fixtures.web 7;
                           fixtures.request 11 "web-b" fixtures.web 7])
                 (Obs.queries Current
                    (fst (DataForCertificate fixtures.duplicates_at_7
                            fixtures.web_at_7))))
    by (vm_compute; left; reflexivity).
  assert (H2 : (2 <= 2)%nat) by lia.
  exact (conj H1 (conj H2
    (proj1 (ambiguity_is_fatal fixtures.duplicates_at_7 fixtures.web_at_7
              Current 7 _ H1 H2)))).
Defined.

Lemma nil_revision_windows_witness :
  cmapi.Status_Revision (pointee fixtures.web_new) = None
  /\ Obs.queries Current
       (fst (DataForCertificate fixtures.first_issuance fixtures.web_new)) = []
  /\ CurrentRevisionRequest
       (fst (snd (DataForCertificate fixtures.first_issuance fixtures.web_new)))
     = None.
Proof.
  split; [reflexivity|].
  pose proof (nil_revision_windows fixtures.first_issuance fixtures.web_new
                eq_refl) as (H1 & H2 & _).
  exact (conj H1 H2).
Defined.

Lemma revision_windows_in_range_witness :
  cmapi.Status_Revision (pointee fixtures.web_at_1) = Some 1
  /\ 1 <= 1 /\ 1 < GoInt.MaxInt
  /\ Obs.queries Current
       (fst (DataForCertificate fixtures.first_issuance fixtures.web_at_1))
     = [(1, owned_at_revision fixtures.first_issuance fixtures.web_at_1 1)]
  /\ Obs.queries Next
       (fst (DataForCertificate fixtures.first_issuance fixtures.web_at_1))
     = [(1 + 1,
         owned_at_revision fixtures.first_issuance fixtures.web_at_1 (1 + 1))].
Proof.
  assert (H1 : 1 <= 1) by lia.
  assert (H2 : 1 < GoInt.MaxInt) by (vm_compute; reflexivity).
  assert (Hok : Obs.secret_ok fixtures.first_issuance fixtures.web_at_1 = true)
    by (vm_compute; reflexivity).
  assert (Hcur : exists cur,
             Spec.disambiguate Current 1
               (owned_at_revision fixtures.first_issuance fixtures.web_at_1 1)
             = inr cur)
    by (eexists; vm_compute; reflexivity).
  pose proof (revision_windows_in_range fixtures.first_issuance
                fixtures.web_at_1 1 eq_refl H1 H2) as (_ & _ & H3 & H4).
  exact (conj eq_refl (conj H1 (conj H2 (conj (H3 Hok) (H4 Hok Hcur))))).
Defined.

(** C3, as the claim states it, fails at the largest [int]: the revision
    after 9223372036854775807 wraps around, and the next window is asked at
    -9223372036854775808, not at 9223372036854775808. *)
Lemma next_revision_wraps_at_MaxInt :
  cmapi.Status_Revision (pointee fixtures.web_at_MaxInt)
  = Some 9223372036854775807
  /\ 1 <= 9223372036854775807
  /\ Obs.queries Next
       (fst (DataForCertificate fixtures.empty fixtures.web_at_MaxInt))
     = [(-9223372036854775808, inr [])]
  /\ ~ (forall revision res,
          In (revision, res)
            (Obs.queries Next
               (fst (DataForCertificate fixtures.empty fixtures.web_at_MaxInt))) ->
          revision = 9223372036854775807 + 1).
Proof.
  split; [reflexivity|]. split; [lia|]. split; [vm_compute; reflexivity|].
  intros H.
  specialize (H (-9223372036854775808) (inr [])).
  assert (Hin : In (-9223372036854775808, inr [])
                  (Obs.queries Next
                     (fst (DataForCertificate fixtures.empty
                             fixtures.web_at_MaxInt))))
    by (vm_compute; left; reflexivity).
  specialize (H Hin). discriminate H.
Qed.

Lemma window_cardinality_witness :
  In (1, inr [fixtures.request 10 "web-a" fixtures.web 1])
    (Obs.queries Current
       (fst (DataForCertificate fixtures.first_issuance fixtures.web_at_1)))
  /\ Obs.raised_at Current
       (DataForCertificate fixtures.first_issuance fixtures.web_at_1) = false
  /\ (snd (snd (DataForCertificate fixtures.first_issuance fixtures.web_at_1))
      = None ->
      Obs.field Current
        (fst (snd (DataForCertificate fixtures.first_issuance fixtures.web_at_1)))
      = Some (fixtures.request 10 "web-a" fixtures.web 1)).
Proof.
  assert (H1 : In (1, inr [fixtures.request 10 "web-a" fixtures.web 1])
                 (Obs.queries Current
                    (fst (DataForCertificate fixtures.first_issuance
                            fixtures.web_at_1))))
    by (vm_compute; left; reflexivity).
  exact (conj H1
    (proj1 (proj2 (window_cardinality fixtures.first_issuance fixtures.web_at_1
                     Current 1 _ H1)) _ eq_refl)).
Defined.

Lemma secret_absence_is_no_error_witness :
  SecretLister fixtures.first_issuance
    (Namespace (cmapi.ID (pointee fixtures.web_new)))
    (cmapi.Spec_SecretName (pointee fixtures.web_new))
  = inl (apierrors.NewNotFound "secrets" "tls-secret")
  /\ apierrors.IsNotFound (Some (apierrors.NewNotFound "secrets" "tls-secret"))
     = true
  /\ Secret (fst (snd (DataForCertificate fixtures.first_issuance
                         fixtures.web_new))) = None
  /\ Obs.last_window
       (fst (DataForCertificate fixtures.first_issuance fixtures.web_new))
     <> None.
Proof.
  assert (H1 : SecretLister fixtures.first_issuance
                 (Namespace (cmapi.ID (pointee fixtures.web_new)))
                 (cmapi.Spec_SecretName (pointee fixtures.web_new))
               = inl (apierrors.NewNotFound "secrets" "tls-secret"))
    by (vm_compute; reflexivity).
  assert (H2 : apierrors.IsNotFound
                 (Some (apierrors.NewNotFound "secrets" "tls-secret")) = true)
    by (vm_compute; reflexivity).
  pose proof (proj1 (secret_absence_is_no_error fixtures.first_issuance
                       fixtures.web_new _ H1) H2) as (H3 & H4 & _).
  exact (conj H1 (conj H2 (conj H3 H4))).
Defined.

Lemma foreign_requests_are_ignored_witness :
  predicate.ResourceOwnedBy fixtures.web_new
    (fixtures.request 11 "api-a" fixtures.api 1) = false
  /\ predicate.CertificateRequestRevision 1
       (fixtures.request 11 "api-a" fixtures.api 1) = true
  /\ NextRevisionRequest
       (fst (snd (DataForCertificate fixtures.first_issuance fixtures.web_new)))
     <> Some (fixtures.request 11 "api-a" fixtures.api 1).
Proof.
  assert (H1 : predicate.ResourceOwnedBy fixtures.web_new
                 (fixtures.request 11 "api-a" fixtures.api 1) = false)
    by (vm_compute; reflexivity).
  split; [exact H1|]. split; [vm_compute; reflexivity|].
  exact (proj1 (proj2 (proj2 (foreign_requests_are_ignored
                                fixtures.first_issuance fixtures.web_new _ H1)))).
Defined.

(** The secret is found, the current window is ambiguous: the view that is
    returned holds no secret. *)
Lemma error_leaves_nothing_witness :
  Obs.secret_ok fixtures.duplicates_at_7 fixtures.web_at_7 = true
  /\ snd (snd (DataForCertificate fixtures.duplicates_at_7 fixtures.web_at_7))
     = Some (Spec.AmbiguityError Current 7)
  /\ fst (snd (DataForCertificate fixtures.duplicates_at_7 fixtures.web_at_7))
     = Input_zero
  /\ Secret (fst (snd (DataForCertificate fixtures.duplicates_at_7
                         fixtures.web_at_7))) = None.
Proof.
  assert (H1 : snd (snd (DataForCertificate fixtures.duplicates_at_7
                           fixtures.web_at_7))
               = Some (Spec.AmbiguityError Current 7))
    by (vm_compute; reflexivity).
  split; [vm_compute; reflexivity|].
  exact (conj H1 (error_leaves_nothing fixtures.duplicates_at_7
                    fixtures.web_at_7 _ H1)).
Defined.

Lemma current_ambiguity_first_witness :
  Obs.secret_ok fixtures.duplicates_at_7_and_8 fixtures.web_at_7 = true
  /\ Obs.queries Next
       (fst (DataForCertificate fixtures.duplicates_at_7_and_8 fixtures.web_at_7))
     = []
  /\ snd (DataForCertificate fixtures.duplicates_at_7_and_8 fixtures.web_at_7)
     = (Input_zero, Some (Spec.AmbiguityError Current 7)).
Proof.
  assert (Hc : owned_at_revision fixtures.duplicates_at_7_and_8 fixtures.web_at_7 7
               = inr [fixtures.request 10 "web-a" fixtures.web 7;
                      fixtures.request 11 "web-b" fixtures.web 7])
    by (vm_compute; reflexivity).
  assert (Hn : owned_at_revision fixtures.duplicates_at_7_and_8 fixtures.web_at_7
                 (GoInt.add 7 1)
               = inr [fixtures.request 12 "web-c" fixtures.web 8;
                      fixtures.request 13 "web-d" fixtures.web 8])
    by (vm_compute; reflexivity).
  assert (H2 : (2 <= 2)%nat) by lia.
  assert (Hok : Obs.secret_ok fixtures.duplicates_at_7_and_8 fixtures.web_at_7
                = true) by (vm_compute; reflexivity).
  pose proof (current_ambiguity_first fixtures.duplicates_at_7_and_8
                fixtures.web_at_7 7 _ _ eq_refl Hc H2 Hn H2) as (H3 & _ & H5).
  split; [exact Hok|]. split; [exact H3|].
  exact (f_equal snd (H5 Hok)).
Defined.

Lemma revision_below_one_witness :
  cmapi.Status_Revision (pointee fixtures.web_at_0) = Some 0
  /\ GoInt.MinInt <= 0 /\ 0 < 1
  /\ snd (DataForCertificate fixtures.around_zero fixtures.web_at_0)
     = Spec.outcome_at fixtures.around_zero fixtures.web_at_0 (Some 0) (0 + 1).
Proof.
  assert (H1 : GoInt.MinInt <= 0) by (vm_compute; discriminate).
  assert (H2 : 0 < 1) by lia.
  pose proof (revision_below_one fixtures.around_zero fixtures.web_at_0 0
                eq_refl H1 H2) as (_ & _ & _ & _ & H).
  exact (conj eq_refl (conj H1 (conj H2 H))).
Defined.

(** Two stores that differ only in another namespace. *)
Lemma resolve_deterministic_witness :
  CertificateRequestLister fixtures.first_issuance "staging"
  <> CertificateRequestLister fixtures.first_issuance_elsewhere "staging"
  /\ DataForCertificate fixtures.first_issuance fixtures.web_new
     = DataForCertificate fixtures.first_issuance_elsewhere fixtures.web_new.
Proof.
  split; [vm_compute; discriminate|].
  exact (proj1 (resolve_deterministic fixtures.first_issuance
                  fixtures.first_issuance_elsewhere fixtures.web_new
                  eq_refl eq_refl)).
Defined.

(** * Further properties of the call *)

(** ** Errors of the request lister *)

(** X1.  An error of the request lister, whatever its reason, a NotFound
    reason included, ends the call at the window that met it: the call
    returns [Input{}] and that very error. *)
Theorem lister_error_propagates (g : Gatherer) (crt : Ptr cmapi.Certificate)
    (w : Window) (revision : Z) (err : error) :
  In (revision, inl err) (Obs.queries w (fst (DataForCertificate g crt))) ->
  snd (DataForCertificate g crt) = (Input_zero, Some err)
  /\ Obs.raised_at w (DataForCertificate g crt) = true.
Proof.
  rewrite DataForCertificate_resolve.
  destruct w; resolve_cases g crt; intros Hin; close_queries;
    split; reflexivity.
Qed.

(** ** Success and failure *)

(** X2.  The call returns a nil error exactly when the secret lookup finds
    the secret or reports it not found, and every listing it makes succeeds
    with at most one request. *)
Theorem success_iff (g : Gatherer) (crt : Ptr cmapi.Certificate) :
  snd (snd (DataForCertificate g crt)) = None
  <-> (Obs.secret_ok g crt = true
       /\ forall w revision res,
            In (revision, res) (Obs.queries w (fst (DataForCertificate g crt))) ->
            exists reqs, res = inr reqs /\ (List.length reqs <= 1)%nat).
Proof.
  rewrite DataForCertificate_resolve.
  resolve_cases g crt; (split; [intros Herr | intros [Hok Hall]]);
    close_queries; try reflexivity.
  all: try (split; [reflexivity|];
            intros [|] revision res Hin;
            cbn [Obs.Window_eqb In] in Hin; close_queries;
            eexists; (split; [reflexivity | cbn [List.length]; lia])).
  all: exfalso;
    first [ destruct (Hall Current _ _ (or_introl eq_refl)) as (? & Heq & Hle);
            first [ discriminate Heq
                  | injection Heq as <-; cbn [List.length] in Hle; lia ]
          | destruct (Hall Next _ _ (or_introl eq_refl)) as (? & Heq & Hle);
            first [ discriminate Heq
                  | injection Heq as <-; cbn [List.length] in Hle; lia ] ].
Qed.

(** X3.  An error the call returns is one of three: the error of the secret
    lister, which is not a NotFound error; the error of a listing; or the
    ambiguity error of a window whose listing held two or more requests.
    The call makes up no other error. *)
Theorem error_origin (g : Gatherer) (crt : Ptr cmapi.Certificate) (err : error) :
  snd (snd (DataForCertificate g crt)) = Some err ->
  (SecretLister g (Namespace (cmapi.ID (pointee crt)))
     (cmapi.Spec_SecretName (pointee crt)) = inl err
   /\ apierrors.IsNotFound (Some err) = false)
  \/ (exists w revision,
        In (revision, inl err) (Obs.queries w (fst (DataForCertificate g crt))))
  \/ (exists w revision reqs,
        In (revision, inr reqs) (Obs.queries w (fst (DataForCertificate g crt)))
        /\ (2 <= List.length reqs)%nat
        /\ err = Spec.AmbiguityError w revision).
Proof.
  rewrite DataForCertificate_resolve. unfold_resolve.
  destruct (SecretLister g _ _) as [e|s] eqn:Hs;
    [destruct (apierrors.IsNotFound (Some e)) eqn:Hnf|];
    split_revision crt; split_windows g crt;
    cbn [fst snd Obs.queries Obs.Window_eqb Spec.disambiguate app In List.length];
    intros Herr; try discriminate Herr; injection Herr as <-.
  all: first
    [ left; split; [reflexivity | assumption]
    | right; left; exists Current; eexists; cbn; left; reflexivity
    | right; left; exists Next; eexists; cbn; auto; fail
    | right; right; exists Current; do 2 eexists; cbn;
      split; [left; reflexivity | split; [cbn; lia | reflexivity]]
    | right; right; exists Next; do 2 eexists; cbn;
      split; [auto; fail | split; [cbn; lia | reflexivity]] ].
Qed.

(** ** The secret *)

(** X4.  The secret of a view returned without error is what the secret
    lister yielded: the pointer it found, or nil when it reported the secret
    not found. *)
Theorem secret_is_the_listers (g : Gatherer) (crt : Ptr cmapi.Certificate) :
  snd (snd (DataForCertificate g crt)) = None ->
  Secret (fst (snd (DataForCertificate g crt)))
  = match SecretLister g (Namespace (cmapi.ID (pointee crt)))
            (cmapi.Spec_SecretName (pointee crt)) with
    | inr secret => Some secret
    | inl _ => None
    end.
Proof.
  rewrite DataForCertificate_resolve.
  resolve_cases g crt; intros Herr; try discriminate Herr; reflexivity.
Qed.

(** ** The order of the lookups *)

(** X5.  A call looks the secret up once, first, under the certificate's
    namespace and secret name.  It then asks the windows in a fixed order,
    the current one (when the certificate has a revision) before the next
    one, each at most once, and stops at the first failure: no window is
    asked when the secret lookup fails, the next window is asked only when
    the current window, if there is one, held at most one request and its
    listing did not fail, and after a listing that failed no window is
    asked.  A call that returns no error has asked every window. *)
Theorem lookups_in_order (g : Gatherer) (crt : Ptr cmapi.Certificate) :
  hd_error (fst (DataForCertificate g crt))
  = Some (SecretsGet (Namespace (cmapi.ID (pointee crt)))
            (cmapi.Spec_SecretName (pointee crt))
            (SecretLister g (Namespace (cmapi.ID (pointee crt)))
               (cmapi.Spec_SecretName (pointee crt))))
  /\ List.length (Obs.secret_lookups (fst (DataForCertificate g crt))) = 1%nat
  /\ Obs.windows_asked (fst (DataForCertificate g crt))
     = (if Obs.secret_ok g crt then
          match cmapi.Status_Revision (pointee crt) with
          | None => [Next]
          | Some R =>
              if Obs.failed (owned_at_revision g crt R)
              then [Current]
              else [Current; Next]
          end
        else [])
  /\ Obs.asked_after_failure (fst (DataForCertificate g crt)) = []
  /\ (exists k,
        Obs.windows_asked (fst (DataForCertificate g crt))
        = firstn k (Obs.windows_planned crt))
  /\ (snd (snd (DataForCertificate g crt)) = None ->
      Obs.windows_asked (fst (DataForCertificate g crt)) = Obs.windows_planned crt).
Proof.
  rewrite DataForCertificate_resolve. unfold Obs.windows_planned.
  trace_cases g crt;
    cbn [Obs.asked_after_failure Obs.failed Obs.windows_asked List.length
         Nat.ltb Nat.leb];
    (split; [reflexivity|]); (split; [reflexivity|]);
    (split; [reflexivity|]); (split; [reflexivity|]);
    (split; [| intros Herr; first [discriminate Herr | reflexivity]]);
    first [ now exists 0%nat | now exists 1%nat | now exists 2%nat ].
Qed.

(** ** The debug lines *)


(** ** What the fields hold *)

(** The revision a window asks for. *)
Lemma queries_revision (g : Gatherer) (crt : Ptr cmapi.Certificate)
    (w : Window) (revision : Z) res :
  In (revision, res) (Obs.queries w (fst (DataForCertificate g crt))) ->
  match w with
  | Current => cmapi.Status_Revision (pointee crt) = Some revision
  | Next => revision = Spec.nextRevision (cmapi.Status_Revision (pointee crt))
  end.
Proof.
  revert revision res. rewrite DataForCertificate_resolve.
  destruct w; resolve_cases g crt; intros revision res Hin; close_pairs;
    reflexivity.
Qed.

(** A listing holds only requests the lister yielded. *)
Lemma owned_at_revision_listed (g : Gatherer) (crt : Ptr cmapi.Certificate)
    (revision : Z) reqs req :
  owned_at_revision g crt revision = inr reqs ->
  In req reqs ->
  exists all,
    CertificateRequestLister g (Namespace (cmapi.ID (pointee crt))) = inr all
    /\ In req all.
Proof.
  unfold owned_at_revision, certificates.ListCertificateRequestsMatchingPredicates.
  destruct (CertificateRequestLister g _) as [e|all]; [discriminate|].
  intros H Hin. injection H as <-.
  apply filter_In in Hin. exists all. tauto.
Qed.

(** The revision of a request in a field. *)
Lemma field_revision (g : Gatherer) (crt : Ptr cmapi.Certificate)
    (w : Window) (req : Ptr cmapi.CertificateRequest) :
  Obs.field w (fst (snd (DataForCertificate g crt))) = Some req ->
  match w with
  | Current =>
      cmapi.Status_Revision (pointee crt) = Some (cmapi.Revision (pointee req))
  | Next =>
      cmapi.Revision (pointee req)
      = Spec.nextRevision (cmapi.Status_Revision (pointee crt))
  end.
Proof.
  intros Hfield.
  destruct (field_from_query g crt w req Hfield) as [revision Hin].
  pose proof (queries_revision g crt w revision _ Hin) as Hrev.
  apply queries_sound in Hin. symmetry in Hin.
  assert (Hreq : In req [req]) by (left; reflexivity).
  destruct (owned_at_revision_sound g crt revision [req] req Hin Hreq) as [_ Hr].
  unfold predicate.CertificateRequestRevision in Hr. apply Z.eqb_eq in Hr.
  destruct w; congruence.
Qed.

(** X7.  A request in a field of what is returned is one of the pointers
    the request lister yielded for the certificate's namespace; it is owned
    by the certificate; in the current field it carries the certificate's
    revision, in the next field the revision the next window asked for. *)
Theorem fields_hold_listed_requests (g : Gatherer) (crt : Ptr cmapi.Certificate)
    (w : Window) (req : Ptr cmapi.CertificateRequest) :
  Obs.field w (fst (snd (DataForCertificate g crt))) = Some req ->
  (exists all,
     CertificateRequestLister g (Namespace (cmapi.ID (pointee crt))) = inr all
     /\ In req all)
  /\ predicate.ResourceOwnedBy crt req = true
  /\ match w with
     | Current =>
         cmapi.Status_Revision (pointee crt)
         = Some (cmapi.Revision (pointee req))
     | Next =>
         cmapi.Revision (pointee req)
         = Spec.nextRevision (cmapi.Status_Revision (pointee crt))
     end.
Proof.
  intros Hfield.
  split; [|split; [|exact (field_revision g crt w req Hfield)]];
    destruct (field_from_query g crt w req Hfield) as [revision Hin];
    apply queries_sound in Hin; symmetry in Hin.
  - apply (owned_at_revision_listed g crt revision [req] req Hin).
    left; reflexivity.
  - apply (owned_at_revision_sound g crt revision [req] req Hin).
    left; reflexivity.
Qed.

Lemma GoInt_add_1_neq (z : Z) : GoInt.add z 1 <> z.
Proof.
  unfold GoInt.add, GoInt.wrap, GoInt.MinInt, GoInt.bits.
  intros H.
  assert (E1 : 2 ^ (64 - 1) = 9223372036854775808) by reflexivity.
  assert (E2 : 2 ^ 64 = 18446744073709551616) by reflexivity.
  rewrite E1, E2 in H. clear E1 E2.
  Z.to_euclidean_division_equations. lia.
Qed.

(** X8.  The two windows never ask for the same revision, so no request is
    both the current and the next request of one view. *)
Theorem current_and_next_differ (g : Gatherer) (crt : Ptr cmapi.Certificate)
    (current next : Ptr cmapi.CertificateRequest) :
  CurrentRevisionRequest (fst (snd (DataForCertificate g crt))) = Some current ->
  NextRevisionRequest (fst (snd (DataForCertificate g crt))) = Some next ->
  cmapi.Revision (pointee current) <> cmapi.Revision (pointee next)
  /\ current <> next.
Proof.
  intros Hc Hn.
  pose proof (field_revision g crt Current current Hc) as Hrc.
  pose proof (field_revision g crt Next next Hn) as Hrn.
  cbn [Obs.field] in Hrc, Hrn.
  assert (Hne : cmapi.Revision (pointee current) <> cmapi.Revision (pointee next)).
  { rewrite Hrn, Hrc. cbn [Spec.nextRevision]. intros H. symmetry in H.
    exact (GoInt_add_1_neq _ H). }
  split; [exact Hne|]. intros ->. apply Hne. reflexivity.
Qed.

(** ** What the result does not depend on *)

Lemma Permutation_filter_compat (A : Type) (f : A -> bool) (l l' : list A) :
  Permutation l l' -> Permutation (filter f l) (filter f l').
Proof.
  induction 1 as [|a l l' Hp IH|a b l|l l' l'' Hp1 IH1 Hp2 IH2]; cbn [filter].
  - constructor.
  - destruct (f a); [constructor|]; exact IH.
  - destruct (f a), (f b); try apply Permutation_refl. apply perm_swap.
  - eapply perm_trans; eassumption.
Qed.

(** Only the number of requests of a listing, and the request itself when
    there is one, decide a window. *)
Lemma disambiguate_Permutation (w : Window) (revision : Z)
    (l l' : list (Ptr cmapi.CertificateRequest)) :
  Permutation l l' ->
  Spec.disambiguate w revision (inr l) = Spec.disambiguate w revision (inr l').
Proof.
  intros Hp. pose proof (Permutation_length Hp) as Hlen.
  destruct l as [|a [|b l]], l' as [|a' [|b' l']]; try discriminate Hlen;
    try reflexivity.
  apply Permutation_length_1 in Hp. subst. reflexivity.
Qed.

(** X9.  The order in which the request lister yields the requests of the
    namespace does not matter: with the requests in another order the call
    returns the same view and the same error. *)
Theorem listing_order_is_irrelevant (g1 g2 : Gatherer) (crt : Ptr cmapi.Certificate)
    (all1 all2 : list (Ptr cmapi.CertificateRequest)) :
  SecretLister g1 (Namespace (cmapi.ID (pointee crt)))
    (cmapi.Spec_SecretName (pointee crt))
  = SecretLister g2 (Namespace (cmapi.ID (pointee crt)))
      (cmapi.Spec_SecretName (pointee crt)) ->
  CertificateRequestLister g1 (Namespace (cmapi.ID (pointee crt))) = inr all1 ->
  CertificateRequestLister g2 (Namespace (cmapi.ID (pointee crt))) = inr all2 ->
  Permutation all1 all2 ->
  snd (DataForCertificate g1 crt) = snd (DataForCertificate g2 crt).
Proof.
  intros Hs H1 H2 Hp.
  assert (Hd : forall w revision,
             Spec.disambiguate w revision (owned_at_revision g1 crt revision)
             = Spec.disambiguate w revision (owned_at_revision g2 crt revision)).
  { intros w revision.
    unfold owned_at_revision, certificates.ListCertificateRequestsMatchingPredicates.
    rewrite H1, H2. apply disambiguate_Permutation, Permutation_filter_compat, Hp. }
  rewrite !DataForCertificate_outcome. unfold Spec.outcome_at.
  rewrite Hs.
  destruct (cmapi.Status_Revision (pointee crt)) as [r|]; rewrite !Hd; reflexivity.
Qed.

(** Taking requests of other revisions out of the store changes no listing
    at the given revision. *)
Lemma owned_at_revision_restrict_revision
    (keep : Ptr cmapi.CertificateRequest -> bool)
    (g : Gatherer) (crt : Ptr cmapi.Certificate) (revision : Z) :
  (forall r, cmapi.Revision (pointee r) = revision -> keep r = true) ->
  owned_at_revision (Obs.restrict keep g) crt revision
  = owned_at_revision g crt revision.
Proof.
  intros Hkeep.
  unfold owned_at_revision, certificates.ListCertificateRequestsMatchingPredicates.
  cbn [Obs.restrict CertificateRequestLister].
  destruct (CertificateRequestLister g _) as [e|all]; [reflexivity|].
  f_equal. apply filter_filter_absorb.
  intros r Hev. apply Hkeep.
  unfold predicate.Evaluate in Hev. cbn [forallb] in Hev.
  rewrite !andb_true_iff in Hev. destruct Hev as (_ & Hr & _).
  apply Z.eqb_eq. exact Hr.
Qed.

(** X10.  Requests that carry neither the certificate's revision nor the
    revision of the next window are never looked at: with them taken out of
    the store the call makes the same queries, with the same answers, and
    returns the same. *)
Theorem other_revisions_are_ignored
    (keep : Ptr cmapi.CertificateRequest -> bool)
    (g : Gatherer) (crt : Ptr cmapi.Certificate) :
  (forall r,
     cmapi.Status_Revision (pointee crt) = Some (cmapi.Revision (pointee r))
     \/ cmapi.Revision (pointee r)
        = Spec.nextRevision (cmapi.Status_Revision (pointee crt)) ->
     keep r = true) ->
  DataForCertificate (Obs.restrict keep g) crt = DataForCertificate g crt.
Proof.
  intros Hkeep.
  rewrite !DataForCertificate_resolve.
  unfold Spec.resolve, Spec.current_window, Spec.next_window, Spec.window_events.
  cbn [Obs.restrict SecretLister].
  destruct (cmapi.Status_Revision (pointee crt)) as [R|] eqn:HR;
    cbn [Spec.nextRevision] in *.
  - rewrite (owned_at_revision_restrict_revision keep g crt R),
      (owned_at_revision_restrict_revision keep g crt (GoInt.add R 1));
      [reflexivity | |].
    + intros r Hr. apply Hkeep. right. exact Hr.
    + intros r Hr. apply Hkeep. left. rewrite Hr. reflexivity.
  - rewrite (owned_at_revision_restrict_revision keep g crt 1); [reflexivity|].
    intros r Hr. apply Hkeep. right. exact Hr.
Qed.

(** X11.  Whether the secret is there or not changes nothing for the
    requests: two calls that get past the secret lookup and see the same
    requests make the same queries and return the same error and the same
    current and next request. *)
Theorem windows_ignore_the_secret (g1 g2 : Gatherer) (crt : Ptr cmapi.Certificate) :
  CertificateRequestLister g1 (Namespace (cmapi.ID (pointee crt)))
  = CertificateRequestLister g2 (Namespace (cmapi.ID (pointee crt))) ->
  Obs.secret_ok g1 crt = true ->
  Obs.secret_ok g2 crt = true ->
  snd (snd (DataForCertificate g1 crt)) = snd (snd (DataForCertificate g2 crt))
  /\ (forall w,
        Obs.queries w (fst (DataForCertificate g1 crt))
        = Obs.queries w (fst (DataForCertificate g2 crt)))
  /\ (forall w,
        Obs.field w (fst (snd (DataForCertificate g1 crt)))
        = Obs.field w (fst (snd (DataForCertificate g2 crt)))).
Proof.
  intros Hr. rewrite !DataForCertificate_resolve. unfold_resolve.
  destruct (SecretLister g1 _ _) as [e1|s1];
    [destruct (apierrors.IsNotFound (Some e1))|];
    (destruct (SecretLister g2 _ _) as [e2|s2];
     [destruct (apierrors.IsNotFound (Some e2))|]);
    intros Hok1 Hok2; try discriminate Hok1; try discriminate Hok2;
    (destruct (cmapi.Status_Revision (pointee crt)) as [r|];
     rewrite !(owned_at_revision_ext g1 g2 crt _ Hr);
     split_windows g2 crt;
     (split; [reflexivity | split; intros [|]; reflexivity])).
Qed.

(** * The further properties at sample inputs *)

Lemma lister_error_propagates_witness :
  In (7, inl fixtures.timeout)
    (Obs.queries Current
       (fst (DataForCertificate fixtures.listing_times_out fixtures.web_at_7)))
  /\ snd (DataForCertificate fixtures.listing_times_out fixtures.web_at_7)
     = (Input_zero, Some fixtures.timeout).
Proof.
  assert (H : In (7, inl fixtures.timeout)
                (Obs.queries Current
                   (fst (DataForCertificate fixtures.listing_times_out
                           fixtures.web_at_7))))
    by (vm_compute; left; reflexivity).
  exact (conj H (proj1 (lister_error_propagates fixtures.listing_times_out
                          fixtures.web_at_7 Current 7 fixtures.timeout H))).
Defined.

Lemma error_origin_witness :
  snd (snd (DataForCertificate fixtures.duplicates_at_7 fixtures.web_at_7))
  = Some (Spec.AmbiguityError Current 7)
  /\ ((SecretLister fixtures.duplicates_at_7
         (Namespace (cmapi.ID (pointee fixtures.web_at_7)))
         (cmapi.Spec_SecretName (pointee fixtures.web_at_7))
       = inl (Spec.AmbiguityError Current 7)
       /\ apierrors.IsNotFound (Some (Spec.AmbiguityError Current 7)) = false)
      \/ (exists w revision,
            In (revision, inl (Spec.AmbiguityError Current 7))
              (Obs.queries w
                 (fst (DataForCertificate fixtures.duplicates_at_7
                         fixtures.web_at_7))))
      \/ (exists w revision reqs,
            In (revision, inr reqs)
              (Obs.queries w
                 (fst (DataForCertificate fixtures.duplicates_at_7
                         fixtures.web_at_7)))
            /\ (2 <= List.length reqs)%nat
            /\ Spec.AmbiguityError Current 7 = Spec.AmbiguityError w revision)).
Proof.
  assert (H : snd (snd (DataForCertificate fixtures.duplicates_at_7
                          fixtures.web_at_7))
              = Some (Spec.AmbiguityError Current 7))
    by (vm_compute; reflexivity).
  exact (conj H (error_origin fixtures.duplicates_at_7 fixtures.web_at_7 _ H)).
Defined.

Lemma secret_is_the_listers_witness :
  snd (snd (DataForCertificate fixtures.three_revisions fixtures.web_at_1)) = None
  /\ Secret (fst (snd (DataForCertificate fixtures.three_revisions
                         fixtures.web_at_1)))
     = Some (fixtures.tls_secret 5).
Proof.
  assert (H : snd (snd (DataForCertificate fixtures.three_revisions
                          fixtures.web_at_1)) = None)
    by (vm_compute; reflexivity).
  exact (conj H (secret_is_the_listers fixtures.three_revisions
                   fixtures.web_at_1 H)).
Defined.

Lemma fields_hold_listed_requests_witness :
  Obs.field Next
    (fst (snd (DataForCertificate fixtures.three_revisions fixtures.web_at_1)))
  = Some (fixtures.request 11 "web-b" fixtures.web 2)
  /\ predicate.ResourceOwnedBy fixtures.web_at_1
       (fixtures.request 11 "web-b" fixtures.web 2) = true.
Proof.
  assert (H : Obs.field Next
                (fst (snd (DataForCertificate fixtures.three_revisions
                             fixtures.web_at_1)))
              = Some (fixtures.request 11 "web-b" fixtures.web 2))
    by (vm_compute; reflexivity).
  exact (conj H (proj1 (proj2 (fields_hold_listed_requests
                                 fixtures.three_revisions fixtures.web_at_1
                                 Next _ H)))).
Defined.

Lemma current_and_next_differ_witness :
  CurrentRevisionRequest
    (fst (snd (DataForCertificate fixtures.three_revisions fixtures.web_at_1)))
  = Some (fixtures.request 10 "web-a" fixtures.web 1)
  /\ NextRevisionRequest
       (fst (snd (DataForCertificate fixtures.three_revisions fixtures.web_at_1)))
     = Some (fixtures.request 11 "web-b" fixtures.web 2)
  /\ fixtures.request 10 "web-a" fixtures.web 1
     <> fixtures.request 11 "web-b" fixtures.web 2.
Proof.
  assert (H1 : CurrentRevisionRequest
                 (fst (snd (DataForCertificate fixtures.three_revisions
                              fixtures.web_at_1)))
               = Some (fixtures.request 10 "web-a" fixtures.web 1))
    by (vm_compute; reflexivity).
  assert (H2 : NextRevisionRequest
                 (fst (snd (DataForCertificate fixtures.three_revisions
                              fixtures.web_at_1)))
               = Some (fixtures.request 11 "web-b" fixtures.web 2))
    by (vm_compute; reflexivity).
  exact (conj H1 (conj H2
    (proj2 (current_and_next_differ fixtures.three_revisions fixtures.web_at_1
              _ _ H1 H2)))).
Defined.

Lemma listing_order_is_irrelevant_witness :
  Permutation
    [fixtures.request 10 "web-a" fixtures.web 1;
     fixtures.request 11 "web-b" fixtures.web 2;
     fixtures.request 12 "web-c" fixtures.web 3]
    [fixtures.request 11 "web-b" fixtures.web 2;
     fixtures.request 10 "web-a" fixtures.web 1;
     fixtures.request 12 "web-c" fixtures.web 3]
  /\ snd (DataForCertificate fixtures.three_revisions fixtures.web_at_1)
     = snd (DataForCertificate fixtures.three_revisions_reordered
              fixtures.web_at_1).
Proof.
  assert (Hp : Permutation
                 [fixtures.request 10 "web-a" fixtures.web 1;
                  fixtures.request 11 "web-b" fixtures.web 2;
                  fixtures.request 12 "web-c" fixtures.web 3]
                 [fixtures.request 11 "web-b" fixtures.web 2;
                  fixtures.request 10 "web-a" fixtures.web 1;
                  fixtures.request 12 "web-c" fixtures.web 3])
    by apply perm_swap.
  exact (conj Hp
    (listing_order_is_irrelevant fixtures.three_revisions
       fixtures.three_revisions_reordered fixtures.web_at_1 _ _
       eq_refl eq_refl eq_refl Hp)).
Defined.

Lemma other_revisions_are_ignored_witness :
  fixtures.up_to_revision_2 (fixtures.request 12 "web-c" fixtures.web 3) = false
  /\ DataForCertificate
       (Obs.restrict fixtures.up_to_revision_2 fixtures.three_revisions)
       fixtures.web_at_1
     = DataForCertificate fixtures.three_revisions fixtures.web_at_1.
Proof.
  split; [reflexivity|].
  apply (other_revisions_are_ignored fixtures.up_to_revision_2
           fixtures.three_revisions fixtures.web_at_1).
  intros r [H|H]; unfold fixtures.up_to_revision_2.
  - injection H as H. rewrite <- H. reflexivity.
  - rewrite H. reflexivity.
Defined.

Lemma windows_ignore_the_secret_witness :
  Secret (fst (snd (DataForCertificate fixtures.three_revisions
                      fixtures.web_at_1)))
  <> Secret (fst (snd (DataForCertificate fixtures.three_revisions_no_secret
                         fixtures.web_at_1)))
  /\ (forall w,
        Obs.field w
          (fst (snd (DataForCertificate fixtures.three_revisions
                       fixtures.web_at_1)))
        = Obs.field w
            (fst (snd (DataForCertificate fixtures.three_revisions_no_secret
                         fixtures.web_at_1)))).
Proof.
  split; [vm_compute; discriminate|].
  assert (H1 : Obs.secret_ok fixtures.three_revisions fixtures.web_at_1 = true)
    by (vm_compute; reflexivity).
  assert (H2 : Obs.secret_ok fixtures.three_revisions_no_secret
                 fixtures.web_at_1 = true)
    by (vm_compute; reflexivity).
  exact (proj2 (proj2 (windows_ignore_the_secret fixtures.three_revisions
                         fixtures.three_revisions_no_secret fixtures.web_at_1
                         eq_refl H1 H2))).
Defined.
